(** * BufferResource: uploading a typed-array pixel buffer to a WebGL texture

    A shallow embedding of
    [packages/core/src/textures/resources/BufferResource.js]
    and the properties of its constructor, [getCompressedTextureFormats],
    [upload], [dispose] and the static [test].

    JavaScript values are an inductive type with the language's truthiness
    and property lookup; numbers are IEEE-754 doubles ([spec_float]).  The
    methods run in a state-and-exception monad over a heap that holds the
    resource ([this]), the [GLTexture] handed to [upload], and the log of
    the calls made on the WebGL context. *)

From Stdlib Require Import ZArith List String Bool Lia.
From Stdlib Require Import Floats.SpecFloat.
From ExtLib Require Import Structures.Monad Structures.MonadState
  Structures.MonadExc Data.Monads.StateMonad Data.Monads.EitherMonad.
Import ListNotations.
Import MonadNotation.
Local Open Scope monad_scope.
Local Open Scope string_scope.
Local Open Scope list_scope.
Local Open Scope Z_scope.

#[local] Existing Instance Monad_stateT.
#[local] Set Warnings "-register-all".

(** ** JavaScript values *)

Module JS.

(** The built-in constructors an object of this development can be an
    instance of.  [TypedArray] is the intrinsic every typed-array
    constructor inherits from. *)
Inductive class :=
| Object | Array | ArrayBuffer | DataView | TypedArray
| Int8Array | Uint8Array | Uint8ClampedArray
| Int16Array | Uint16Array | Int32Array | Uint32Array
| Float32Array | Float64Array.


(** The constructors whose [prototype] lies on the prototype chain of an
    object created by [new c], nearest first. *)
Definition prototype_chain (c : class) : list class :=
  match c with
  | Object => [Object]
  | Array | ArrayBuffer | DataView | TypedArray => [c; Object]
  | Int8Array | Uint8Array | Uint8ClampedArray
  | Int16Array | Uint16Array | Int32Array | Uint32Array
  | Float32Array | Float64Array => [c; TypedArray; Object]
  end.

(** The element type of the buffers a typed-array constructor makes. *)
Inductive element :=
| Int8 | Uint8 | Uint8Clamped | Int16 | Uint16 | Int32 | Uint32
| Float32 | Float64.

Definition element_of (c : class) : option element :=
  match c with
  | Int8Array => Some Int8
  | Uint8Array => Some Uint8
  | Uint8ClampedArray => Some Uint8Clamped
  | Int16Array => Some Int16
  | Uint16Array => Some Uint16
  | Int32Array => Some Int32
  | Uint32Array => Some Uint32
  | Float32Array => Some Float32
  | Float64Array => Some Float64
  | Object | Array | ArrayBuffer | DataView | TypedArray => None
  end.

(** A prototype object, [c.prototype]: every realm (a window, an iframe, a
    worker) has its own set of constructors, and so its own prototypes.
    Realm [0] is the one the code runs in. *)
Inductive prototype :=
| Prototype (realm : nat) (c : class).


(** [c.prototype] as the code, which names the constructors of its own
    realm, evaluates it. *)
Definition prototype_of (c : class) : prototype := Prototype 0 c.

(** The internal slots of an object that matter here: the element type of
    its buffer when it is a typed array, and its prototype chain, nearest
    first.  The two are independent: an ordinary object can inherit from
    [Float32Array.prototype] ([Object.create]), and a typed array can have
    any chain (another realm, a subclass, [Object.setPrototypeOf]). *)
Record slots := {
  typed_array : option element;
  chain : list prototype
}.

(** The slots of an object made by [new c] in the realm of the code, its
    prototype untouched; a constructor stands for them where slots are
    expected. *)
Definition made_by (c : class) : slots :=
  {| typed_array := element_of c;
     chain := map prototype_of (prototype_chain c) |}.
Coercion made_by : class >-> slots.

(** A value is a primitive or an object; an object carries its internal
    slots and the properties visible on it. *)
Inductive value :=
| undefined
| null
| boolean (b : bool)
| number (x : spec_float)
| str (s : string)
| object (o : slots) (properties : list (string * value)).

(** The double nearest to an integer (binary64: 53 bits, emax 1024). *)
Definition of_Z (z : Z) : spec_float := binary_normalize 53 1024 z 0 false.

(** [ToBoolean]: [undefined], [null], [false], [+0], [-0], [NaN] and the
    empty string are falsy, everything else is truthy. *)
Definition ToBoolean (v : value) : bool :=
  match v with
  | undefined | null => false
  | boolean b => b
  | number (S754_zero _) | number S754_nan => false
  | number _ => true
  | str s => negb (String.eqb s "")
  | object _ _ => true
  end.

Fixpoint lookup (k : string) (ps : list (string * value)) : option value :=
  match ps with
  | [] => None
  | (k', v) :: ps => if String.eqb k' k then Some v else lookup k ps
  end.

(** [v.k] for a [v] that is not [undefined] or [null].  A primitive is
    read through its wrapper object, which has no [width] or [height];
    the own properties of wrappers (a string's [length] and indices) are
    not part of this model. *)
Definition Get (v : value) (k : string) : value :=
  match v with
  | object _ ps => match lookup k ps with Some x => x | None => undefined end
  | _ => undefined
  end.


(** The empty object literal. *)
Definition empty_object : value := object Object [].

(** [a || b] on values already evaluated. *)
Definition or_else (a b : value) : value := if ToBoolean a then a else b.

(** What a [throw] carries. *)
Inductive exn :=
| Error (message : string)
| TypeError (message : string).

End JS.
Import JS.

(** ** The base class *)

Module Resource.

(** Modelled from the spec: the base class [Resource], imported from
    ['./Resource'], is not among the sources.  The spec's data model gives
    a resource a [width] and a [height], "fixed at construction; declared
    once, immutable afterward": the instance state of the base class. *)
Record t := mk { _width : value; _height : value }.

(** Modelled from the spec: the base constructor, which
    [super(width, height)] calls; "a resource referencing [source] with
    the given fixed dimensions" stores both as they are given. *)
Definition constructor (width height : value) : t :=
  {| _width := width; _height := height |}.

(** Modelled from the spec: the two getters through which "the resource
    reports exactly those dimensions". *)
Definition width (r : t) : value := _width r.
Definition height (r : t) : value := _height r.

End Resource.

(** ** The collaborators of [upload] *)

(** [PIXI.BaseTexture], read only: the fields [upload] reads.  The GL
    enumerants and the sizes are integers; [===] on them is [Z.eqb].  A
    NaN size, the one number [===] does not relate to itself, is outside
    this type. *)
Module BaseTexture.
Record t := mk {
  format : Z;
  type : Z;
  target : Z;
  width : Z;
  height : Z;
  premultiplyAlpha : bool
}.
End BaseTexture.

(** [PIXI.GLTexture]: [upload] writes [width] and [height] and reads
    [internalFormat] and [type]. *)
Module GLTexture.
Record t := mk {
  width : Z;
  height : Z;
  internalFormat : Z;
  type : Z
}.
Definition set_width (w : Z) (g : t) : t :=
  {| width := w; height := height g;
     internalFormat := internalFormat g; type := type g |}.
Definition set_height (h : Z) (g : t) : t :=
  {| width := width g; height := h;
     internalFormat := internalFormat g; type := type g |}.
End GLTexture.

(** The WebGL rendering context: its constants, and what the driver
    answers to the two queries the resource makes.  On a live context
    [getParameter(COMPRESSED_TEXTURE_FORMATS)] is a [Uint32Array]; on a
    lost one [getExtension] is [null] and the parameter is never asked. *)
Module WebGL.

Record t := mk {
  RGBA : Z;
  RGB : Z;
  COMPRESSED_TEXTURE_FORMATS : Z;
  UNPACK_PREMULTIPLY_ALPHA_WEBGL : Z;
  (** the extension object (or [null]) [getExtension] returns *)
  extension : string -> value;
  (** the [Uint32Array] [getParameter] returns, as its elements *)
  parameter : Z -> list Z
}.

(** The calls made on the context, with their arguments in order. *)
Inductive call :=
| getExtension (name : string)
| getParameter (pname : Z)
| pixelStorei (pname : Z) (param : bool)
| compressedTexSubImage2D
    (target level xoffset yoffset width height format : Z) (pixels : value)
| texSubImage2D
    (target level xoffset yoffset width height format type : Z)
    (pixels : value)
| compressedTexImage2D
    (target level internalformat width height border : Z) (pixels : value)
| texImage2D
    (target level internalformat width height border format type : Z)
    (pixels : value).

End WebGL.

Module Renderer.
Record t := mk { gl : WebGL.t }.
End Renderer.

(** ** The resource *)

Module BufferResource.

(** The instance: the base-class part, the [data] reference, and the
    [compressedTextureFormats] field, which is [undefined] ([None]) until
    [getCompressedTextureFormats] stores an array in it. *)
Record t := mk {
  super : Resource.t;
  data : value;
  compressedTextureFormats : option (list Z)
}.

Definition width (r : t) : value := Resource.width (super r).
Definition height (r : t) : value := Resource.height (super r).

(** [new BufferResource(source, options)]: the thrown error, or the
    instance. *)
Definition constructor (source options : value) : exn + t :=
  let o := JS.or_else options empty_object in
  let width := Get o "width" in
  let height := Get o "height" in
  if negb (ToBoolean width) || negb (ToBoolean height)
  then inl (Error "BufferResource width or height invalid")
  else inr {| super := Resource.constructor width height;
              data := source;
              compressedTextureFormats := None |}.



(** *** The heap and the monad of the methods *)

(** What a method call can read and write: the instance it is called on,
    the [GLTexture] passed to [upload], and the calls made so far on the
    context, oldest first. *)
Record heap := mkheap {
  this : t;
  glTexture : GLTexture.t;
  gl_calls : list WebGL.call
}.

(** A method body: it reads and writes the heap and may throw. *)
Definition M : Type -> Type := stateT heap (sum exn).

Definition run {A} (m : M A) (h : heap) : exn + (A * heap) := runStateT m h.

Definition set_this (r : t) (h : heap) : heap :=
  {| this := r; glTexture := glTexture h; gl_calls := gl_calls h |}.
Definition set_glTexture (g : GLTexture.t) (h : heap) : heap :=
  {| this := this h; glTexture := g; gl_calls := gl_calls h |}.
Definition log (c : WebGL.call) (h : heap) : heap :=
  {| this := this h; glTexture := glTexture h;
     gl_calls := gl_calls h ++ [c] |}.

Definition set_data (v : value) (r : t) : t :=
  {| super := super r; data := v;
     compressedTextureFormats := compressedTextureFormats r |}.
Definition set_compressedTextureFormats (a : option (list Z)) (r : t) : t :=
  {| super := super r; data := data r; compressedTextureFormats := a |}.

(** **** Calls on the context: each is logged; a query answers what the
    driver says. *)

Definition gl_getExtension (gl : WebGL.t) (name : string) : M value :=
  modify (log (WebGL.getExtension name)) ;;
  ret (WebGL.extension gl name).

Definition gl_getParameter (gl : WebGL.t) (pname : Z) : M (list Z) :=
  modify (log (WebGL.getParameter pname)) ;;
  ret (WebGL.parameter gl pname).

Definition gl_call (c : WebGL.call) : M unit :=
  modify (log c) ;; ret tt.

(** **** Control flow *)

(** [a || b]: [b] is evaluated only when [a] is falsy. *)
Definition orM (a b : M value) : M value :=
  x <- a ;; if ToBoolean x then ret x else b.

(** [a && b] on booleans: [b] is evaluated only when [a] is [true]. *)
Definition andM (a b : M bool) : M bool :=
  x <- a ;; if x then b else ret false.

(** [for (let i = 0; i < a.length; i++) body(a[i])]: the elements of [a]
    in index order. *)
Fixpoint for_each {A} (a : list A) (body : A -> M unit) : M unit :=
  match a with
  | [] => ret tt
  | x :: a => body x ;; for_each a body
  end.

(** [Array.prototype.indexOf] on an array of numbers: the first index
    holding [x], or [-1]. *)
Fixpoint indexOf_from (i : Z) (a : list Z) (x : Z) : Z :=
  match a with
  | [] => -1
  | y :: a => if y =? x then i else indexOf_from (i + 1) a x
  end.
Definition indexOf (a : list Z) (x : Z) : Z := indexOf_from 0 a x.

(** **** The methods *)

(** [this.compressedTextureFormats.push(x)] *)
Definition push (x : Z) : M unit :=
  h <- get ;;
  match compressedTextureFormats (this h) with
  | Some a =>
      put (set_this (set_compressedTextureFormats (Some (a ++ [x])) (this h)) h)
  | None => raise (TypeError "this.compressedTextureFormats is undefined")
  end.

(** [getCompressedTextureFormats(renderer)]; the result is the content of
    the field. *)
Definition getCompressedTextureFormats (renderer : Renderer.t)
  : M (option (list Z)) :=
  let gl := Renderer.gl renderer in
  h <- get ;;
  match compressedTextureFormats (this h) with
  | None =>
      put (set_this (set_compressedTextureFormats (Some []) (this h)) h) ;;
      ext <- orM (orM (orM
               (gl_getExtension gl "WEBGL_compressed_texture_pvrtc")
               (gl_getExtension gl "WEBGL_compressed_texture_s3tc"))
               (gl_getExtension gl "WEBGL_compressed_texture_etc1"))
               (gl_getExtension gl "WEBGL_compressed_texture_astc") ;;
      if ToBoolean ext then
        formats <- gl_getParameter gl (WebGL.COMPRESSED_TEXTURE_FORMATS gl) ;;
        for_each formats push
      else ret tt
  | Some _ => ret tt
  end ;;
  h' <- get ;;
  ret (compressedTextureFormats (this h')).

(** [upload(renderer, baseTexture, glTexture)], the [glTexture] being the
    one of the heap. *)
Definition upload (renderer : Renderer.t) (baseTexture : BaseTexture.t)
  : M bool :=
  let gl := Renderer.gl renderer in
  let internalFormat := BaseTexture.format baseTexture in
  isCompressed <-
    andM (andM
      (ret (negb (internalFormat =? WebGL.RGBA gl)))
      (ret (negb (internalFormat =? WebGL.RGB gl))))
      (a <- getCompressedTextureFormats renderer ;;
       match a with
       | Some a => ret (indexOf a internalFormat >? -1)
       | None => raise (TypeError "cannot read indexOf of undefined")
       end) ;;
  gl_call (WebGL.pixelStorei (WebGL.UNPACK_PREMULTIPLY_ALPHA_WEBGL gl)
             (BaseTexture.premultiplyAlpha baseTexture)) ;;
  h <- get ;;
  (if (GLTexture.width (glTexture h) =? BaseTexture.width baseTexture)
      && (GLTexture.height (glTexture h) =? BaseTexture.height baseTexture)
   then
     if isCompressed : bool then
       gl_call (WebGL.compressedTexSubImage2D
         (BaseTexture.target baseTexture) 0 0 0
         (BaseTexture.width baseTexture) (BaseTexture.height baseTexture)
         internalFormat (data (this h)))
     else
       gl_call (WebGL.texSubImage2D
         (BaseTexture.target baseTexture) 0 0 0
         (BaseTexture.width baseTexture) (BaseTexture.height baseTexture)
         internalFormat (BaseTexture.type baseTexture) (data (this h)))
   else
     modify (fun s => set_glTexture
       (GLTexture.set_width (BaseTexture.width baseTexture) (glTexture s)) s) ;;
     modify (fun s => set_glTexture
       (GLTexture.set_height (BaseTexture.height baseTexture) (glTexture s)) s) ;;
     if isCompressed then
       gl_call (WebGL.compressedTexImage2D
         (BaseTexture.target baseTexture) 0 internalFormat
         (BaseTexture.width baseTexture) (BaseTexture.height baseTexture)
         0 (data (this h)))
     else
       h' <- get ;;
       gl_call (WebGL.texImage2D
         (BaseTexture.target baseTexture) 0
         (GLTexture.internalFormat (glTexture h'))
         (BaseTexture.width baseTexture) (BaseTexture.height baseTexture)
         0 internalFormat (GLTexture.type (glTexture h')) (data (this h')))) ;;
  ret true.

(** [dispose()] *)
Definition dispose : M unit :=
  modify (fun h => set_this (set_data null (this h)) h) ;; ret tt.

End BufferResource.

Import BufferResource.

(** ** Vocabulary of the properties *)

(** [m], started in [h], returns [a] without throwing and ends in [h'],
    having made exactly the calls [cs] on the context, in that order. *)
Definition performs {A} (m : M A) (h : heap) (a : A)
  (cs : list WebGL.call) (h' : heap) : Prop :=
  run m h = inr (a, h') /\ gl_calls h' = gl_calls h ++ cs.

(** The four pixel-transfer primitives, by kind. *)
Definition is_sub_image_transfer (c : WebGL.call) : bool :=
  match c with
  | WebGL.compressedTexSubImage2D _ _ _ _ _ _ _ _
  | WebGL.texSubImage2D _ _ _ _ _ _ _ _ _ => true
  | _ => false
  end.

Definition is_full_image_transfer (c : WebGL.call) : bool :=
  match c with
  | WebGL.compressedTexImage2D _ _ _ _ _ _ _
  | WebGL.texImage2D _ _ _ _ _ _ _ _ _ => true
  | _ => false
  end.

Definition is_compressed_transfer (c : WebGL.call) : bool :=
  match c with
  | WebGL.compressedTexSubImage2D _ _ _ _ _ _ _ _
  | WebGL.compressedTexImage2D _ _ _ _ _ _ _ => true
  | _ => false
  end.

Definition is_transfer (c : WebGL.call) : bool :=
  is_sub_image_transfer c || is_full_image_transfer c.

(** The transfers among the calls of a run. *)
Definition transfers (cs : list WebGL.call) : list WebGL.call :=
  filter is_transfer cs.

(** A question to the driver: an extension lookup or a parameter query. *)
Definition is_driver_query (c : WebGL.call) : bool :=
  match c with
  | WebGL.getExtension _ | WebGL.getParameter _ => true
  | _ => false
  end.

(** The four extension families, in the order the code asks for them. *)
Definition extension_names : list string :=
  [ "WEBGL_compressed_texture_pvrtc"; "WEBGL_compressed_texture_s3tc";
    "WEBGL_compressed_texture_etc1"; "WEBGL_compressed_texture_astc" ].

(** Some compressed-texture extension is available on the context. *)
Definition has_compressed_extension (gl : WebGL.t) : bool :=
  existsb (fun n => ToBoolean (WebGL.extension gl n)) extension_names.

(** The compressed formats of a context: what the driver reports when an
    extension is available, nothing otherwise. *)
Definition driver_formats (gl : WebGL.t) : list Z :=
  if has_compressed_extension gl
  then WebGL.parameter gl (WebGL.COMPRESSED_TEXTURE_FORMATS gl)
  else [].

(** The lookups a short-circuit [||] chain over [names] makes: it stops at
    the first extension found. *)
Fixpoint lookups (gl : WebGL.t) (names : list string) : list WebGL.call :=
  match names with
  | [] => []
  | n :: names =>
      WebGL.getExtension n ::
      (if ToBoolean (WebGL.extension gl n) then [] else lookups gl names)
  end.

(** The driver queries of a first [getCompressedTextureFormats]. *)
Definition query_calls (gl : WebGL.t) : list WebGL.call :=
  lookups gl extension_names ++
  (if has_compressed_extension gl
   then [WebGL.getParameter (WebGL.COMPRESSED_TEXTURE_FORMATS gl)]
   else []).

(** The resource's cache is unpopulated, or holds what a query of this
    very context stored in it. *)
Definition cache_of_context (gl : WebGL.t) (r : BufferResource.t) : Prop :=
  compressedTextureFormats r = None
  \/ compressedTextureFormats r = Some (driver_formats gl).

(** The value the caller gave for the option [k], if any: [options] may
    be left out, or lack the property. *)
Definition provided (options : value) (k : string) : option value :=
  match options with
  | object _ ps => lookup k ps
  | _ => None
  end.

Definition missing_or_falsy (o : option value) : bool :=
  match o with
  | Some v => negb (ToBoolean v)
  | None => true
  end.

(** A number greater than zero. *)
Definition is_positive (v : value) : bool :=
  match v with
  | number x => SFltb (S754_zero false) x
  | _ => false
  end.




(** The operations on a constructed resource; an upload comes with the
    [GLTexture] it is handed. *)
Inductive operation :=
| Upload (renderer : Renderer.t) (baseTexture : BaseTexture.t)
    (glTexture : GLTexture.t)
| GetCompressedTextureFormats (renderer : Renderer.t)
| Dispose.

Definition perform (o : operation) : M unit :=
  match o with
  | Upload renderer baseTexture g =>
      modify (set_glTexture g) ;; upload renderer baseTexture ;; ret tt
  | GetCompressedTextureFormats renderer =>
      getCompressedTextureFormats renderer ;; ret tt
  | Dispose => dispose
  end.

(** A WebGL 1 context with the S3TC extension and its four formats, one
    without any compressed-texture extension, and textures to upload. *)
Definition s3tc_context : WebGL.t :=
  {| WebGL.RGBA := 6408;
     WebGL.RGB := 6407;
     WebGL.COMPRESSED_TEXTURE_FORMATS := 34467;
     WebGL.UNPACK_PREMULTIPLY_ALPHA_WEBGL := 37441;
     WebGL.extension := fun n =>
       if String.eqb n "WEBGL_compressed_texture_s3tc"
       then empty_object else null;
     WebGL.parameter := fun p =>
       if p =? 34467 then [33776; 33777; 33778; 33779] else [] |}.

Definition plain_context : WebGL.t :=
  {| WebGL.RGBA := 6408;
     WebGL.RGB := 6407;
     WebGL.COMPRESSED_TEXTURE_FORMATS := 34467;
     WebGL.UNPACK_PREMULTIPLY_ALPHA_WEBGL := 37441;
     WebGL.extension := fun _ => null;
     WebGL.parameter := fun _ => [] |}.

Definition size_options (w h : Z) : value :=
  object Object [("width", number (of_Z w)); ("height", number (of_Z h))].

Definition float_buffer : value := object Float32Array [].

(** A 4x4 resource as the constructor makes it. *)
Definition resource4x4 : BufferResource.t :=
  {| super := Resource.constructor (number (of_Z 4)) (number (of_Z 4));
     data := float_buffer;
     compressedTextureFormats := None |}.

(** Its heap before the first upload: the GL texture is still 0x0. *)
Definition heap0 : heap :=
  {| this := resource4x4;
     glTexture := GLTexture.mk 0 0 6408 5126;
     gl_calls := [] |}.

Definition rgba_texture : BaseTexture.t :=
  BaseTexture.mk 6408 5126 3553 4 4 false.

Definition dxt3_texture : BaseTexture.t :=
  BaseTexture.mk 33777 5121 3553 4 4 false.

(** *** Closed forms of the two methods, used to reason about their runs *)

(** What a query answers in [h]: the cached array if there is one, else
    the formats of the context. *)
Definition cached_formats (gl : WebGL.t) (h : heap) : list Z :=
  match compressedTextureFormats (this h) with
  | Some a => a
  | None => driver_formats gl
  end.

(** The heap a query leaves: untouched when the cache was populated, else
    with the cache filled and the driver queries logged. *)
Definition queried (gl : WebGL.t) (h : heap) : heap :=
  match compressedTextureFormats (this h) with
  | Some _ => h
  | None =>
      {| this := set_compressedTextureFormats (Some (driver_formats gl))
                   (this h);
         glTexture := glTexture h;
         gl_calls := gl_calls h ++ query_calls gl |}
  end.

(** The format is one of the two standard ones: [&&] stops before the
    query. *)
Definition is_standard_format (gl : WebGL.t) (b : BaseTexture.t) : bool :=
  (BaseTexture.format b =? WebGL.RGBA gl)
  || (BaseTexture.format b =? WebGL.RGB gl).

Definition same_size (b : BaseTexture.t) (g : GLTexture.t) : bool :=
  (GLTexture.width g =? BaseTexture.width b)
  && (GLTexture.height g =? BaseTexture.height b).

(** The transfer of an upload classified [compressed], for a GL texture
    [g] as it is before the call. *)
Definition transfer_of (compressed : bool) (b : BaseTexture.t)
  (g : GLTexture.t) (pixels : value) : WebGL.call :=
  match same_size b g, compressed with
  | true, true =>
      WebGL.compressedTexSubImage2D (BaseTexture.target b) 0 0 0
        (BaseTexture.width b) (BaseTexture.height b)
        (BaseTexture.format b) pixels
  | true, false =>
      WebGL.texSubImage2D (BaseTexture.target b) 0 0 0
        (BaseTexture.width b) (BaseTexture.height b)
        (BaseTexture.format b) (BaseTexture.type b) pixels
  | false, true =>
      WebGL.compressedTexImage2D (BaseTexture.target b) 0
        (BaseTexture.format b)
        (BaseTexture.width b) (BaseTexture.height b) 0 pixels
  | false, false =>
      WebGL.texImage2D (BaseTexture.target b) 0 (GLTexture.internalFormat g)
        (BaseTexture.width b) (BaseTexture.height b) 0
        (BaseTexture.format b) (GLTexture.type g) pixels
  end.

(** The classification of step 1: [true] for a compressed upload. *)
Definition classified_compressed (gl : WebGL.t) (b : BaseTexture.t)
  (h : heap) : bool :=
  negb (is_standard_format gl b)
  && (indexOf (cached_formats gl h) (BaseTexture.format b) >? -1).

(** The GL texture after an upload. *)
Definition resized (b : BaseTexture.t) (g : GLTexture.t) : GLTexture.t :=
  if same_size b g then g
  else GLTexture.mk (BaseTexture.width b) (BaseTexture.height b)
         (GLTexture.internalFormat g) (GLTexture.type g).

(** The pixel source handed to a transfer. *)
Definition pixels (c : WebGL.call) : option value :=
  match c with
  | WebGL.compressedTexSubImage2D _ _ _ _ _ _ _ p
  | WebGL.texSubImage2D _ _ _ _ _ _ _ _ p
  | WebGL.compressedTexImage2D _ _ _ _ _ _ p
  | WebGL.texImage2D _ _ _ _ _ _ _ _ p => Some p
  | _ => None
  end.

(** * Properties *)

(** ** Runs of the monad *)

Section RunLaws.
Context {A B : Type}.

Lemma run_bind (m : M A) (f : A -> M B) (h : heap) :
  run (bind m f) h
  = match run m h with
    | inl e => inl e
    | inr (a, h') => run (f a) h'
    end.
Proof.
  unfold run. simpl. destruct (runStateT m h) as [e | [a h']]; reflexivity.
Qed.

End RunLaws.

Lemma heap_eta (h : heap) : mkheap (this h) (glTexture h) (gl_calls h) = h.
Proof. destruct h; reflexivity. Qed.

Lemma set_compressedTextureFormats_same (r : BufferResource.t) a :
  compressedTextureFormats r = a -> set_compressedTextureFormats a r = r.
Proof. destruct r; simpl; intros <-; reflexivity. Qed.

(** ** [indexOf] *)

Lemma indexOf_from_absent a x : forall i,
  ~ In x a -> indexOf_from i a x = -1.
Proof.
  induction a as [|y a IH]; intros i Hn; simpl.
  - reflexivity.
  - destruct (Z.eqb_spec y x) as [->|_].
    + exfalso. apply Hn. left. reflexivity.
    + apply IH. intros Hin. apply Hn. right. exact Hin.
Qed.

Lemma indexOf_from_present a x : forall i,
  In x a -> i <= indexOf_from i a x.
Proof.
  induction a as [|y a IH]; intros i Hin; simpl.
  - destruct Hin.
  - destruct (Z.eqb_spec y x) as [->|Hne].
    + lia.
    + destruct Hin as [->|Hin]; [contradiction|].
      specialize (IH (i + 1) Hin). lia.
Qed.

(** [a.indexOf(x) > -1] exactly when [x] is an element of [a]. *)
Lemma indexOf_found a x : (indexOf a x >? -1) = true <-> In x a.
Proof.
  unfold indexOf. rewrite Z.gtb_lt. split.
  - intros Hlt. destruct (in_dec Z.eq_dec x a) as [Hin|Hn]; [exact Hin|].
    rewrite (indexOf_from_absent a x 0 Hn) in Hlt. lia.
  - intros Hin. pose proof (indexOf_from_present a x 0 Hin). lia.
Qed.

(** ** The format query *)

(** The loop appends the driver's formats to the array, in order. *)
Lemma for_each_push fs : forall a h,
  compressedTextureFormats (this h) = Some a ->
  run (for_each fs push) h
  = inr (tt, set_this
               (set_compressedTextureFormats (Some (a ++ fs)) (this h)) h).
Proof.
  unfold run.
  induction fs as [|f fs IH]; intros a h Hc.
  - simpl. rewrite app_nil_r, set_compressedTextureFormats_same by assumption.
    unfold set_this. rewrite heap_eta. reflexivity.
  - simpl. rewrite Hc. simpl.
    erewrite IH by reflexivity. simpl. rewrite <- app_assoc. reflexivity.
Qed.

Lemma getCompressedTextureFormats_cached renderer h a :
  compressedTextureFormats (this h) = Some a ->
  run (getCompressedTextureFormats renderer) h = inr (Some a, h).
Proof.
  intros Hc. unfold run, getCompressedTextureFormats. simpl.
  rewrite Hc. simpl. rewrite Hc. reflexivity.
Qed.

Lemma getCompressedTextureFormats_fresh renderer h :
  compressedTextureFormats (this h) = None ->
  run (getCompressedTextureFormats renderer) h
  = inr (Some (driver_formats (Renderer.gl renderer)),
         {| this := set_compressedTextureFormats
                      (Some (driver_formats (Renderer.gl renderer))) (this h);
            glTexture := glTexture h;
            gl_calls := gl_calls h ++ query_calls (Renderer.gl renderer) |}).
Proof.
  intros Hc. unfold run, getCompressedTextureFormats. simpl. rewrite Hc.
  unfold driver_formats, query_calls, has_compressed_extension,
    extension_names.
  pose proof (for_each_push
    (WebGL.parameter (Renderer.gl renderer)
       (WebGL.COMPRESSED_TEXTURE_FORMATS (Renderer.gl renderer))) []) as Hloop.
  unfold run in Hloop. simpl.
  destruct (ToBoolean (WebGL.extension _ "WEBGL_compressed_texture_pvrtc"))
    eqn:E1; simpl; repeat (rewrite E1; simpl);
  [| destruct (ToBoolean (WebGL.extension _ "WEBGL_compressed_texture_s3tc"))
       eqn:E2; simpl; repeat (rewrite E2; simpl);
     [| destruct (ToBoolean
                    (WebGL.extension _ "WEBGL_compressed_texture_etc1"))
          eqn:E3; simpl; repeat (rewrite E3; simpl);
        [| destruct (ToBoolean
                       (WebGL.extension _ "WEBGL_compressed_texture_astc"))
             eqn:E4; simpl; repeat (rewrite E4; simpl) ]]];
  try (rewrite Hloop by reflexivity);
  unfold set_this, set_compressedTextureFormats, log; simpl;
  rewrite <- ?app_assoc; reflexivity.
Qed.

(** A query never throws: it answers [cached_formats] and leaves
    [queried]. *)
Lemma getCompressedTextureFormats_run renderer h :
  run (getCompressedTextureFormats renderer) h
  = inr (Some (cached_formats (Renderer.gl renderer) h),
         queried (Renderer.gl renderer) h).
Proof.
  unfold cached_formats, queried.
  destruct (compressedTextureFormats (this h)) as [a|] eqn:Hc.
  - apply getCompressedTextureFormats_cached. exact Hc.
  - apply getCompressedTextureFormats_fresh. exact Hc.
Qed.

Lemma queried_frame gl h :
  glTexture (queried gl h) = glTexture h
  /\ data (this (queried gl h)) = data (this h)
  /\ super (this (queried gl h)) = super (this h).
Proof.
  unfold queried. destruct (compressedTextureFormats (this h)); simpl; auto.
Qed.

(** ** The upload *)

#[local] Opaque getCompressedTextureFormats.

(** Step 1: the query runs only for a format that is neither RGBA nor
    RGB. *)
Lemma classification_run renderer b h :
  let gl := Renderer.gl renderer in
  let internalFormat := BaseTexture.format b in
  run (andM (andM
         (ret (negb (internalFormat =? WebGL.RGBA gl)))
         (ret (negb (internalFormat =? WebGL.RGB gl))))
         (a <- getCompressedTextureFormats renderer ;;
          match a with
          | Some a => ret (indexOf a internalFormat >? -1)
          | None => raise (TypeError "cannot read indexOf of undefined")
          end)) h
  = inr (classified_compressed gl b h,
         if is_standard_format gl b then h else queried gl h).
Proof.
  intros gl internalFormat.
  pose proof (getCompressedTextureFormats_run renderer h) as Hq.
  unfold run in *. unfold classified_compressed, is_standard_format.
  subst gl internalFormat. simpl.
  destruct (BaseTexture.format b =? WebGL.RGBA (Renderer.gl renderer));
    simpl; [reflexivity|].
  destruct (BaseTexture.format b =? WebGL.RGB (Renderer.gl renderer));
    simpl; [reflexivity|].
  rewrite Hq. reflexivity.
Qed.

(** An upload never throws and returns [true]; its effect in closed form. *)
Lemma upload_run renderer b h :
  let gl := Renderer.gl renderer in
  let h1 := if is_standard_format gl b then h else queried gl h in
  run (upload renderer b) h
  = inr (true,
         {| this := this h1;
            glTexture := resized b (glTexture h);
            gl_calls :=
              gl_calls h1 ++
              [ WebGL.pixelStorei (WebGL.UNPACK_PREMULTIPLY_ALPHA_WEBGL gl)
                  (BaseTexture.premultiplyAlpha b);
                transfer_of (classified_compressed gl b h) b (glTexture h)
                  (data (this h)) ] |}).
Proof.
  intros gl h1.
  pose proof (classification_run renderer b h) as Hc. cbv zeta in Hc.
  unfold upload. cbv zeta. rewrite run_bind, Hc. fold gl h1.
  assert (Hg : glTexture h1 = glTexture h /\ data (this h1) = data (this h)).
  { subst h1. destruct (is_standard_format gl b); [auto|].
    destruct (queried_frame gl h) as (Hg & Hd & _). auto. }
  destruct Hg as [Hg Hd].
  unfold run, resized, transfer_of, same_size. simpl. rewrite Hg, Hd.
  destruct ((GLTexture.width (glTexture h) =? BaseTexture.width b)
            && (GLTexture.height (glTexture h) =? BaseTexture.height b));
    destruct (classified_compressed gl b h); simpl;
    unfold log, set_glTexture; simpl; rewrite <- ?app_assoc, ?Hg, ?Hd;
    reflexivity.
Qed.

#[local] Transparent getCompressedTextureFormats.

(** The cache holds the answer once a query has run. *)
Lemma queried_cache gl h :
  compressedTextureFormats (this (queried gl h)) = Some (cached_formats gl h).
Proof.
  unfold queried, cached_formats.
  destruct (compressedTextureFormats (this h)) as [a|] eqn:Hc; simpl.
  - exact Hc.
  - reflexivity.
Qed.

(** A query asks the driver only; a populated cache asks nothing. *)
Lemma queried_calls gl h :
  exists qs,
    gl_calls (queried gl h) = gl_calls h ++ qs
    /\ forallb is_driver_query qs = true
    /\ (compressedTextureFormats (this h) <> None -> qs = []).
Proof.
  unfold queried.
  destruct (compressedTextureFormats (this h)) as [a|] eqn:Hc.
  - exists []. rewrite app_nil_r. auto.
  - exists (query_calls gl). simpl. split; [reflexivity|]. split.
    + unfold query_calls, extension_names. simpl.
      rewrite forallb_app.
      destruct (has_compressed_extension gl);
        repeat (match goal with
                | |- context [if ?c then _ else _] => destruct c
                end; simpl); reflexivity.
    + intros Hn. exfalso. apply Hn. reflexivity.
Qed.

Lemma transfer_of_is_transfer c b g p : is_transfer (transfer_of c b g p) = true.
Proof.
  unfold transfer_of. destruct (same_size b g), c; reflexivity.
Qed.

(** Among driver queries, the unpack flag and one transfer, the transfer
    is the only transfer. *)
Lemma transfers_of_upload qs pname param t :
  forallb is_driver_query qs = true -> is_transfer t = true ->
  transfers (qs ++ [WebGL.pixelStorei pname param; t]) = [t].
Proof.
  intros Hq Ht. unfold transfers. rewrite filter_app.
  assert (Hnil : filter is_transfer qs = []).
  { induction qs as [|q qs IH]; [reflexivity|].
    simpl in Hq. apply andb_true_iff in Hq. destruct Hq as [Hq Hqs].
    simpl. destruct q; simpl in Hq; try discriminate; simpl; auto. }
  rewrite Hnil. simpl. rewrite Ht. reflexivity.
Qed.

(** What every upload does: it returns [true], asks the driver at most
    the cache's questions, sets the unpack flag and makes one transfer. *)
Lemma upload_performs renderer b h :
  let gl := Renderer.gl renderer in
  let t := transfer_of (classified_compressed gl b h) b (glTexture h)
             (data (this h)) in
  exists qs h',
    performs (upload renderer b) h true
      (qs ++ [ WebGL.pixelStorei (WebGL.UNPACK_PREMULTIPLY_ALPHA_WEBGL gl)
                 (BaseTexture.premultiplyAlpha b); t ]) h'
    /\ forallb is_driver_query qs = true
    /\ (is_standard_format gl b = true -> qs = [] /\ this h' = this h)
    /\ glTexture h' = resized b (glTexture h)
    /\ super (this h') = super (this h).
Proof.
  intros gl t. pose proof (upload_run renderer b h) as Hrun.
  cbv zeta in Hrun. fold gl t in Hrun.
  destruct (is_standard_format gl b) eqn:Hstd.
  - exists []. eexists. split; [split; [exact Hrun|reflexivity]|].
    simpl. auto.
  - destruct (queried_calls gl h) as (qs & Hqs & Hall & _).
    destruct (queried_frame gl h) as (_ & _ & Hsuper).
    exists qs. eexists. split; [split; [exact Hrun|]|].
    + simpl. rewrite Hqs, <- app_assoc. reflexivity.
    + simpl. split; [exact Hall|]. split; [discriminate|]. auto.
Qed.

(** ** The claims *)

(** C10: when the format of the texture is the RGBA or the RGB identifier,
    [upload] makes no extension lookup and no parameter query on the
    context, and the resource -- its [compressedTextureFormats] cache in
    particular -- is after the call what it was before; the cache stays
    unpopulated if it was. *)
Theorem upload_standard_format_skips_query renderer b h :
  BaseTexture.format b = WebGL.RGBA (Renderer.gl renderer)
  \/ BaseTexture.format b = WebGL.RGB (Renderer.gl renderer) ->
  exists cs h',
    performs (upload renderer b) h true cs h'
    /\ forallb (fun c => negb (is_driver_query c)) cs = true
    /\ this h' = this h
    /\ compressedTextureFormats (this h')
       = compressedTextureFormats (this h).
Proof.
  intros Hfmt.
  destruct (upload_performs renderer b h) as (qs & h' & Hp & _ & Hstd & _).
  assert (Hs : is_standard_format (Renderer.gl renderer) b = true).
  { unfold is_standard_format. apply orb_true_iff.
    destruct Hfmt as [-> | ->]; rewrite Z.eqb_refl; auto. }
  destruct (Hstd Hs) as [-> Hthis].
  eexists. exists h'. split; [exact Hp|]. split.
  - simpl. unfold transfer_of.
    destruct (same_size b (glTexture h)),
      (classified_compressed (Renderer.gl renderer) b h); reflexivity.
  - split; [exact Hthis|]. rewrite Hthis. reflexivity.
Qed.

Lemma upload_standard_format_skips_query_witness :
  exists cs h',
    performs (upload (Renderer.mk s3tc_context) rgba_texture) heap0 true cs h'
    /\ forallb (fun c => negb (is_driver_query c)) cs = true
    /\ this h' = this heap0
    /\ compressedTextureFormats (this h') = None.
Proof.
  apply (upload_standard_format_skips_query
           (Renderer.mk s3tc_context) rgba_texture heap0).
  left. reflexivity.
Defined.

(** C2: when the GL texture already has the width and the height of the
    base texture, [upload] returns [true], leaves the GL texture (its width
    and height in particular) unchanged, and makes exactly one transfer: a
    sub-image one, compressed or standard, at mip level 0 with origin
    (0, 0), the full extent and the resource's data -- and so no full-image
    transfer. *)
Theorem upload_same_size_updates_in_place renderer b h :
  GLTexture.width (glTexture h) = BaseTexture.width b ->
  GLTexture.height (glTexture h) = BaseTexture.height b ->
  exists cs h' c,
    performs (upload renderer b) h true cs h'
    /\ glTexture h' = glTexture h
    /\ GLTexture.width (glTexture h') = GLTexture.width (glTexture h)
    /\ GLTexture.height (glTexture h') = GLTexture.height (glTexture h)
    /\ transfers cs = [c]
    /\ is_full_image_transfer c = false
    /\ (c = WebGL.compressedTexSubImage2D (BaseTexture.target b) 0 0 0
              (BaseTexture.width b) (BaseTexture.height b)
              (BaseTexture.format b) (data (this h))
        \/ c = WebGL.texSubImage2D (BaseTexture.target b) 0 0 0
                 (BaseTexture.width b) (BaseTexture.height b)
                 (BaseTexture.format b) (BaseTexture.type b)
                 (data (this h))).
Proof.
  intros Hw Hh.
  destruct (upload_performs renderer b h) as (qs & h' & Hp & Hq & _ & Hg & _).
  assert (Hsame : same_size b (glTexture h) = true).
  { unfold same_size. rewrite Hw, Hh, !Z.eqb_refl. reflexivity. }
  unfold resized in Hg. rewrite Hsame in Hg.
  eexists. exists h'. eexists. split; [exact Hp|].
  rewrite Hg. repeat (split; [reflexivity|]).
  split; [apply transfers_of_upload; [exact Hq|apply transfer_of_is_transfer]|].
  unfold transfer_of. rewrite Hsame.
  destruct (classified_compressed (Renderer.gl renderer) b h);
    split; auto.
Qed.

Lemma upload_same_size_updates_in_place_witness :
  exists cs h' c,
    performs (upload (Renderer.mk s3tc_context) rgba_texture)
      (set_glTexture (GLTexture.mk 4 4 6408 5126) heap0) true cs h'
    /\ glTexture h' = GLTexture.mk 4 4 6408 5126
    /\ GLTexture.width (glTexture h') = 4
    /\ GLTexture.height (glTexture h') = 4
    /\ transfers cs = [c]
    /\ is_full_image_transfer c = false
    /\ (c = WebGL.compressedTexSubImage2D 3553 0 0 0 4 4 6408 float_buffer
        \/ c = WebGL.texSubImage2D 3553 0 0 0 4 4 6408 5126 float_buffer).
Proof.
  apply (upload_same_size_updates_in_place (Renderer.mk s3tc_context)
           rgba_texture (set_glTexture (GLTexture.mk 4 4 6408 5126) heap0));
    reflexivity.
Defined.

(** C3: when the width or the height of the GL texture differs from the
    base texture's, [upload] makes exactly one transfer, a full-image one
    (compressed or standard), the GL texture has afterwards the width and
    the height of the base texture, and [upload] returns [true]. *)
Theorem upload_other_size_allocates renderer b h :
  GLTexture.width (glTexture h) <> BaseTexture.width b
  \/ GLTexture.height (glTexture h) <> BaseTexture.height b ->
  exists cs h' c,
    performs (upload renderer b) h true cs h'
    /\ GLTexture.width (glTexture h') = BaseTexture.width b
    /\ GLTexture.height (glTexture h') = BaseTexture.height b
    /\ transfers cs = [c]
    /\ is_sub_image_transfer c = false
    /\ (c = WebGL.compressedTexImage2D (BaseTexture.target b) 0
              (BaseTexture.format b)
              (BaseTexture.width b) (BaseTexture.height b) 0
              (data (this h))
        \/ c = WebGL.texImage2D (BaseTexture.target b) 0
                 (GLTexture.internalFormat (glTexture h))
                 (BaseTexture.width b) (BaseTexture.height b) 0
                 (BaseTexture.format b) (GLTexture.type (glTexture h))
                 (data (this h))).
Proof.
  intros Hdiff.
  destruct (upload_performs renderer b h) as (qs & h' & Hp & Hq & _ & Hg & _).
  assert (Hsame : same_size b (glTexture h) = false).
  { unfold same_size. apply andb_false_iff.
    destruct Hdiff as [Hw | Hh]; [left | right]; apply Z.eqb_neq; assumption. }
  unfold resized in Hg. rewrite Hsame in Hg.
  eexists. exists h'. eexists. split; [exact Hp|].
  rewrite Hg. simpl. repeat (split; [reflexivity|]).
  split; [apply transfers_of_upload; [exact Hq|apply transfer_of_is_transfer]|].
  unfold transfer_of. rewrite Hsame.
  destruct (classified_compressed (Renderer.gl renderer) b h);
    split; auto.
Qed.

Lemma upload_other_size_allocates_witness :
  exists cs h' c,
    performs (upload (Renderer.mk s3tc_context) dxt3_texture) heap0 true cs h'
    /\ GLTexture.width (glTexture h') = 4
    /\ GLTexture.height (glTexture h') = 4
    /\ transfers cs = [c]
    /\ is_sub_image_transfer c = false
    /\ (c = WebGL.compressedTexImage2D 3553 0 33777 4 4 0 float_buffer
        \/ c = WebGL.texImage2D 3553 0 6408 4 4 0 33777 5126 float_buffer).
Proof.
  apply (upload_other_size_allocates (Renderer.mk s3tc_context)
           dxt3_texture heap0).
  left. simpl. lia.
Defined.

(** The classification, read as a proposition. *)
Lemma classified_compressed_iff gl b h :
  classified_compressed gl b h = true
  <-> BaseTexture.format b <> WebGL.RGBA gl
      /\ BaseTexture.format b <> WebGL.RGB gl
      /\ In (BaseTexture.format b) (cached_formats gl h).
Proof.
  unfold classified_compressed, is_standard_format.
  rewrite andb_true_iff, negb_true_iff, orb_false_iff, indexOf_found.
  rewrite !Z.eqb_neq. tauto.
Qed.

Lemma transfer_of_compressed c b g p :
  is_compressed_transfer (transfer_of c b g p) = c.
Proof.
  unfold transfer_of. destruct (same_size b g), c; reflexivity.
Qed.

(** C7: an upload on the uncompressed full-allocation path -- the sizes
    differ, and the format is RGBA, RGB or not among the formats the cache
    answers -- makes the standard full-image transfer with the target of
    the base texture, mip level 0, the GL texture's [internalFormat] as
    internal format, the base texture's width and height, border 0, the
    base texture's format, the GL texture's [type], and the resource's
    data. *)
Theorem upload_uncompressed_allocation renderer b h a hq :
  GLTexture.width (glTexture h) <> BaseTexture.width b
  \/ GLTexture.height (glTexture h) <> BaseTexture.height b ->
  run (getCompressedTextureFormats renderer) h = inr (Some a, hq) ->
  BaseTexture.format b = WebGL.RGBA (Renderer.gl renderer)
  \/ BaseTexture.format b = WebGL.RGB (Renderer.gl renderer)
  \/ ~ In (BaseTexture.format b) a ->
  exists cs h',
    performs (upload renderer b) h true cs h'
    /\ transfers cs
       = [ WebGL.texImage2D (BaseTexture.target b) 0
             (GLTexture.internalFormat (glTexture h))
             (BaseTexture.width b) (BaseTexture.height b) 0
             (BaseTexture.format b) (GLTexture.type (glTexture h))
             (data (this h)) ].
Proof.
  intros Hdiff Hquery Hfmt.
  destruct (upload_performs renderer b h) as (qs & h' & Hp & Hq & _).
  rewrite getCompressedTextureFormats_run in Hquery.
  injection Hquery as Ha _. subst a.
  assert (Hc : classified_compressed (Renderer.gl renderer) b h = false).
  { apply not_true_is_false. rewrite classified_compressed_iff. tauto. }
  assert (Hsame : same_size b (glTexture h) = false).
  { unfold same_size. apply andb_false_iff.
    destruct Hdiff as [Hw | Hh]; [left | right]; apply Z.eqb_neq; assumption. }
  eexists. exists h'. split; [exact Hp|].
  rewrite transfers_of_upload by
    (try exact Hq; apply transfer_of_is_transfer).
  unfold transfer_of. rewrite Hsame, Hc. reflexivity.
Qed.

Lemma upload_uncompressed_allocation_witness :
  exists cs h',
    performs (upload (Renderer.mk s3tc_context) rgba_texture) heap0 true cs h'
    /\ transfers cs
       = [ WebGL.texImage2D 3553 0 6408 4 4 0 6408 5126 float_buffer ].
Proof.
  refine (upload_uncompressed_allocation (Renderer.mk s3tc_context)
            rgba_texture heap0 [33776; 33777; 33778; 33779] _ _ _ _).
  - left. simpl. lia.
  - reflexivity.
  - left. reflexivity.
Defined.

(** C1 (amended): an upload makes one transfer, and it is a compressed one
    exactly when the format is neither the RGBA nor the RGB identifier and
    is an element of the array [getCompressedTextureFormats] answers for
    that renderer.  When no compressed-texture extension is available on
    the context and the resource's cache is unpopulated or was filled from
    this context, that array is empty and the transfer is an uncompressed
    one, whatever the format. *)
Theorem upload_classification renderer b h :
  exists a hq cs h' c,
    run (getCompressedTextureFormats renderer) h = inr (Some a, hq)
    /\ performs (upload renderer b) h true cs h'
    /\ transfers cs = [c]
    /\ (is_compressed_transfer c = true
        <-> BaseTexture.format b <> WebGL.RGBA (Renderer.gl renderer)
            /\ BaseTexture.format b <> WebGL.RGB (Renderer.gl renderer)
            /\ In (BaseTexture.format b) a)
    /\ (has_compressed_extension (Renderer.gl renderer) = false ->
        cache_of_context (Renderer.gl renderer) (this h) ->
        a = [] /\ is_compressed_transfer c = false).
Proof.
  destruct (upload_performs renderer b h) as (qs & h' & Hp & Hq & _).
  exists (cached_formats (Renderer.gl renderer) h).
  exists (queried (Renderer.gl renderer) h). eexists. exists h'. eexists.
  split; [apply getCompressedTextureFormats_run|].
  split; [exact Hp|].
  split; [apply transfers_of_upload; [exact Hq|apply transfer_of_is_transfer]|].
  rewrite transfer_of_compressed. split.
  - apply classified_compressed_iff.
  - intros Hnone Hcache.
    assert (Hempty : cached_formats (Renderer.gl renderer) h = []).
    { unfold cached_formats, driver_formats.
      destruct Hcache as [-> | ->]; [|unfold driver_formats];
        rewrite Hnone; reflexivity. }
    split; [exact Hempty|].
    apply not_true_is_false. rewrite classified_compressed_iff, Hempty.
    simpl. tauto.
Qed.

(** C1 as stated fails: a resource whose cache was filled through a
    context with the S3TC extension answers the same four formats to a
    context without any compressed-texture extension, and an upload of a
    DXT3 texture through that context makes a compressed transfer. *)
Lemma stale_cache_selects_compressed_path :
  exists h1 cs h2,
    run (getCompressedTextureFormats (Renderer.mk s3tc_context)) heap0
    = inr (Some [33776; 33777; 33778; 33779], h1)
    /\ has_compressed_extension plain_context = false
    /\ run (getCompressedTextureFormats (Renderer.mk plain_context)) h1
       = inr (Some [33776; 33777; 33778; 33779], h1)
    /\ performs (upload (Renderer.mk plain_context) dxt3_texture) h1 true
         cs h2
    /\ transfers cs
       = [ WebGL.compressedTexImage2D 3553 0 33777 4 4 0 float_buffer ].
Proof.
  eexists. eexists. eexists.
  split; [reflexivity|].
  split; [reflexivity|].
  split; [reflexivity|].
  split; [split; [reflexivity|]|].
  - simpl. instantiate (1 :=
      [ WebGL.pixelStorei 37441 false;
        WebGL.compressedTexImage2D 3553 0 33777 4 4 0 float_buffer ]).
    reflexivity.
  - reflexivity.
Qed.

(** C6: [getCompressedTextureFormats] is memoized on the instance.  A first
    call never throws and answers an array; a second call, on the same
    renderer or on any other, answers the same array, makes no call on the
    context at all (no extension lookup, no parameter query) and leaves the
    heap as it is -- also when the array is empty. *)
Theorem getCompressedTextureFormats_memoized renderer renderer' h :
  exists a qs h1,
    performs (getCompressedTextureFormats renderer) h (Some a) qs h1
    /\ forallb is_driver_query qs = true
    /\ performs (getCompressedTextureFormats renderer') h1 (Some a) [] h1
    /\ performs (getCompressedTextureFormats renderer) h1 (Some a) [] h1.
Proof.
  set (gl := Renderer.gl renderer).
  destruct (queried_calls gl h) as (qs & Hcalls & Hall & _).
  exists (cached_formats gl h), qs, (queried gl h).
  pose proof (queried_cache gl h) as Hcache.
  split; [|split; [exact Hall|]].
  - split; [apply getCompressedTextureFormats_run | exact Hcalls].
  - split; (split;
      [ apply getCompressedTextureFormats_cached; exact Hcache
      | rewrite app_nil_r; reflexivity ]).
Qed.

(** The empty case of C6 on a context without extensions: four lookups,
    then nothing. *)
Example getCompressedTextureFormats_memoizes_empty :
  exists h1,
    performs (getCompressedTextureFormats (Renderer.mk plain_context)) heap0
      (Some []) (map WebGL.getExtension extension_names) h1
    /\ performs (getCompressedTextureFormats (Renderer.mk plain_context)) h1
         (Some []) [] h1.
Proof.
  eexists. split; split; reflexivity.
Qed.

(** C9: after [dispose()] the [data] reference of the resource is [null];
    a second [dispose()] completes as well, without throwing, and leaves
    the heap as the first one left it, [data] still [null]. *)
Theorem dispose_idempotent h :
  exists h1,
    performs dispose h tt [] h1
    /\ data (this h1) = null
    /\ performs dispose h1 tt [] h1.
Proof.
  exists (set_this (set_data null (this h)) h).
  split; [|split].
  - split; [reflexivity|]. simpl. rewrite app_nil_r. reflexivity.
  - reflexivity.
  - split; [reflexivity|]. simpl. rewrite app_nil_r. reflexivity.
Qed.






(** ** Construction *)

(** The destructuring [const { width, height } = options || {}] reads what
    the caller provided, and [undefined] for what is missing. *)
Lemma destructured_option options k :
  Get (JS.or_else options empty_object) k
  = match provided options k with
    | Some v => v
    | None => undefined
    end.
Proof.
  unfold JS.or_else, provided.
  destruct options as [| |[|]|x|s|c ps]; try reflexivity.
  - destruct x; reflexivity.
  - simpl. destruct (String.eqb s ""); reflexivity.
Qed.

Lemma missing_or_falsy_spec options k :
  missing_or_falsy (provided options k)
  = negb (ToBoolean (Get (JS.or_else options empty_object) k)).
Proof.
  rewrite destructured_option.
  destruct (provided options k); reflexivity.
Qed.

(** C4: construction succeeds, and the resource reports exactly the given
    width and height, when both are provided and truthy; it throws the
    error -- and so yields no resource -- exactly when the width or the
    height is missing, zero or otherwise falsy. *)
Theorem constructor_checks_sizes source options :
  (forall w h,
     provided options "width" = Some w ->
     provided options "height" = Some h ->
     ToBoolean w = true -> ToBoolean h = true ->
     exists r,
       constructor source options = inr r
       /\ super r = Resource.constructor w h
       /\ BufferResource.width r = w /\ BufferResource.height r = h
       /\ data r = source /\ compressedTextureFormats r = None)
  /\ (constructor source options
      = inl (Error "BufferResource width or height invalid")
      <-> missing_or_falsy (provided options "width") = true
          \/ missing_or_falsy (provided options "height") = true)
  /\ ((exists r, constructor source options = inr r)
      <-> missing_or_falsy (provided options "width") = false
          /\ missing_or_falsy (provided options "height") = false).
Proof.
  rewrite !missing_or_falsy_spec. unfold constructor.
  split; [|split].
  - intros w h Hw Hh Tw Th. rewrite !destructured_option, Hw, Hh, Tw, Th.
    simpl. eexists. split; [reflexivity|]. repeat split.
  - rewrite <- orb_true_iff.
    destruct (negb (ToBoolean (Get (JS.or_else options empty_object) "width"))
              || negb (ToBoolean (Get (JS.or_else options empty_object) "height")));
      split; intros H; try reflexivity; discriminate H.
  - rewrite <- orb_false_iff.
    destruct (negb (ToBoolean (Get (JS.or_else options empty_object) "width"))
              || negb (ToBoolean (Get (JS.or_else options empty_object) "height")));
      split; intros H; try reflexivity; try discriminate H.
    + destruct H as [r H]. discriminate H.
    + eexists. reflexivity.
Qed.

(** Missing options, a missing height, a zero and a NaN are refused; a
    4x4 size is accepted. *)
Example constructor_examples :
  constructor float_buffer undefined
  = inl (Error "BufferResource width or height invalid")
  /\ constructor float_buffer (object Object [("width", number (of_Z 4))])
     = inl (Error "BufferResource width or height invalid")
  /\ constructor float_buffer (size_options 0 4)
     = inl (Error "BufferResource width or height invalid")
  /\ constructor float_buffer
       (object Object [("width", number (of_Z 4)); ("height", number S754_nan)])
     = inl (Error "BufferResource width or height invalid")
  /\ constructor float_buffer (size_options 4 4) = inr resource4x4.
Proof.
  repeat split; vm_compute; reflexivity.
Qed.

(** ** The life of a resource *)

Lemma run_modify (f : heap -> heap) (h : heap) :
  run (modify f) h = inr (h, f h).
Proof. reflexivity. Qed.

(** No operation throws, and none touches the base-class part of the
    resource, where the width and the height are. *)
Lemma perform_keeps_sizes o h :
  exists h', run (perform o) h = inr (tt, h')
             /\ super (this h') = super (this h).
Proof.
  destruct o as [renderer b g | renderer |]; unfold perform.
  - rewrite run_bind, run_modify, run_bind.
    destruct (upload_performs renderer b (set_glTexture g h))
      as (qs & h' & [Hrun _] & _ & _ & _ & Hsuper).
    rewrite Hrun. exists h'. split; [reflexivity|exact Hsuper].
  - rewrite run_bind, getCompressedTextureFormats_run.
    eexists. split; [reflexivity|].
    apply (queried_frame (Renderer.gl renderer) h).
  - eexists. split; reflexivity.
Qed.

Lemma perform_all_keeps_sizes ops : forall h,
  exists h', run (for_each ops perform) h = inr (tt, h')
             /\ super (this h') = super (this h).
Proof.
  induction ops as [|o ops IH]; intros h.
  - exists h. split; reflexivity.
  - destruct (perform_keeps_sizes o h) as (h1 & Hrun1 & Hsuper1).
    destruct (IH h1) as (h2 & Hrun2 & Hsuper2).
    exists h2. split.
    + change (for_each (o :: ops) perform)
        with (perform o ;; for_each ops perform).
      rewrite run_bind, Hrun1. exact Hrun2.
    + rewrite Hsuper2. exact Hsuper1.
Qed.

(** C5 (amended): the width and the height of a constructed resource are
    truthy -- provided, and neither zero, NaN, [null] nor an empty string
    -- and no sequence of uploads, format queries and disposals ever
    throws or changes them. *)
Theorem live_resource_sizes source options r ops h :
  constructor source options = inr r ->
  this h = r ->
  ToBoolean (BufferResource.width r) = true
  /\ ToBoolean (BufferResource.height r) = true
  /\ provided options "width" = Some (BufferResource.width r)
  /\ provided options "height" = Some (BufferResource.height r)
  /\ exists h',
       run (for_each ops perform) h = inr (tt, h')
       /\ BufferResource.width (this h') = BufferResource.width r
       /\ BufferResource.height (this h') = BufferResource.height r.
Proof.
  intros Hnew Hthis. unfold constructor in Hnew.
  rewrite !destructured_option in Hnew.
  destruct (provided options "width") as [w|]; [|discriminate Hnew].
  destruct (provided options "height") as [h0|];
    [|rewrite orb_true_r in Hnew; discriminate Hnew].
  destruct (ToBoolean w) eqn:Tw; [|discriminate Hnew].
  destruct (ToBoolean h0) eqn:Th; [|discriminate Hnew].
  simpl in Hnew. injection Hnew as <-.
  unfold BufferResource.width, BufferResource.height. simpl.
  repeat (split; [assumption || reflexivity|]).
  destruct (perform_all_keeps_sizes ops h) as (h' & Hrun & Hsuper).
  exists h'. rewrite Hsuper, Hthis. simpl. auto.
Qed.

Lemma live_resource_sizes_witness :
  exists h',
    run (for_each
           [ Upload (Renderer.mk s3tc_context) dxt3_texture
               (GLTexture.mk 0 0 6408 5126);
             GetCompressedTextureFormats (Renderer.mk plain_context);
             Upload (Renderer.mk plain_context) rgba_texture
               (GLTexture.mk 4 4 6408 5126);
             Dispose ] perform) heap0 = inr (tt, h')
    /\ BufferResource.width (this h') = number (of_Z 4)
    /\ BufferResource.height (this h') = number (of_Z 4).
Proof.
  refine (proj2 (proj2 (proj2 (proj2
    (live_resource_sizes float_buffer (size_options 4 4) resource4x4 _
       heap0 _ _))))); reflexivity.
Defined.

(** C5 as stated fails: the constructor accepts a negative width, which is
    truthy, and the resource it returns has a width that is not greater
    than zero. *)
Lemma negative_width_is_accepted :
  exists r,
    constructor float_buffer (size_options (-1) 4) = inr r
    /\ BufferResource.width r = number (of_Z (-1))
    /\ is_positive (BufferResource.width r) = false
    /\ is_positive (BufferResource.width resource4x4) = true.
Proof.
  eexists. split; [|split; [|split]].
  - vm_compute. reflexivity.
  - reflexivity.
  - vm_compute. reflexivity.
  - vm_compute. reflexivity.
Qed.

(** ** Scenarios *)

(** A first upload of an RGBA texture to a 0x0 GL texture allocates it; a
    second one updates it in place. *)
Example first_upload_allocates :
  run (upload (Renderer.mk s3tc_context) rgba_texture) heap0
  = inr (true,
         {| this := resource4x4;
            glTexture := GLTexture.mk 4 4 6408 5126;
            gl_calls :=
              [ WebGL.pixelStorei 37441 false;
                WebGL.texImage2D 3553 0 6408 4 4 0 6408 5126 float_buffer ]
         |}).
Proof. vm_compute. reflexivity. Qed.

Example second_upload_updates :
  run (upload (Renderer.mk s3tc_context) rgba_texture ;;
       upload (Renderer.mk s3tc_context) rgba_texture) heap0
  = inr (true,
         {| this := resource4x4;
            glTexture := GLTexture.mk 4 4 6408 5126;
            gl_calls :=
              [ WebGL.pixelStorei 37441 false;
                WebGL.texImage2D 3553 0 6408 4 4 0 6408 5126 float_buffer;
                WebGL.pixelStorei 37441 false;
                WebGL.texSubImage2D 3553 0 0 0 4 4 6408 5126 float_buffer ]
         |}).
Proof. vm_compute. reflexivity. Qed.

(** A format the driver reports is uploaded compressed: the lookups stop
    at the S3TC extension, the formats are cached in the driver's order. *)
Example compressed_upload_allocates :
  run (upload (Renderer.mk s3tc_context) dxt3_texture) heap0
  = inr (true,
         {| this := set_compressedTextureFormats
                      (Some [33776; 33777; 33778; 33779]) resource4x4;
            glTexture := GLTexture.mk 4 4 6408 5126;
            gl_calls :=
              [ WebGL.getExtension "WEBGL_compressed_texture_pvrtc";
                WebGL.getExtension "WEBGL_compressed_texture_s3tc";
                WebGL.getParameter 34467;
                WebGL.pixelStorei 37441 false;
                WebGL.compressedTexImage2D 3553 0 33777 4 4 0 float_buffer ]
         |}).
Proof. vm_compute. reflexivity. Qed.

(** Without any extension the same format is uploaded uncompressed, and
    the parameter is not asked. *)
Example upload_without_extension :
  run (upload (Renderer.mk plain_context) dxt3_texture) heap0
  = inr (true,
         {| this := set_compressedTextureFormats (Some []) resource4x4;
            glTexture := GLTexture.mk 4 4 6408 5126;
            gl_calls :=
              map WebGL.getExtension extension_names ++
              [ WebGL.pixelStorei 37441 false;
                WebGL.texImage2D 3553 0 6408 4 4 0 33777 5126 float_buffer ]
         |}).
Proof. vm_compute. reflexivity. Qed.

(** * Further properties of the methods *)

(** ** The first format query *)

(** X1: on a resource whose cache is unpopulated,
    [getCompressedTextureFormats] answers, and stores in the cache, the
    array [getParameter(COMPRESSED_TEXTURE_FORMATS)] returns, element by
    element in the driver's order, when one of the four extensions is
    available, and an empty array when none is. *)
Theorem first_query_caches_driver_formats renderer h :
  compressedTextureFormats (this h) = None ->
  let gl := Renderer.gl renderer in
  exists a qs h',
    performs (getCompressedTextureFormats renderer) h (Some a) qs h'
    /\ compressedTextureFormats (this h') = Some a
    /\ (has_compressed_extension gl = true ->
        a = WebGL.parameter gl (WebGL.COMPRESSED_TEXTURE_FORMATS gl))
    /\ (has_compressed_extension gl = false -> a = []).
Proof.
  intros Hnone gl.
  exists (driver_formats gl), (query_calls gl). eexists.
  split; [split|].
  - apply getCompressedTextureFormats_fresh. exact Hnone.
  - reflexivity.
  - simpl. split; [reflexivity|].
    unfold driver_formats. split; intros ->; reflexivity.
Qed.

Lemma first_query_caches_driver_formats_witness :
  exists a qs h',
    performs (getCompressedTextureFormats (Renderer.mk s3tc_context)) heap0
      (Some a) qs h'
    /\ compressedTextureFormats (this h') = Some a
    /\ (has_compressed_extension s3tc_context = true ->
        a = [33776; 33777; 33778; 33779])
    /\ (has_compressed_extension s3tc_context = false -> a = []).
Proof.
  apply (first_query_caches_driver_formats (Renderer.mk s3tc_context) heap0).
  reflexivity.
Defined.

(** X2: the first query looks the four extensions up in the order pvrtc,
    s3tc, etc1, astc and stops at the first one the context has: it makes
    between one and four lookups, every lookup but the last found nothing,
    and [getParameter] is asked -- once, after the lookups -- exactly when
    the last lookup found an extension. *)
Theorem first_query_lookups_short_circuit renderer h :
  compressedTextureFormats (this h) = None ->
  let gl := Renderer.gl renderer in
  exists k a h',
    (k < 4)%nat
    /\ performs (getCompressedTextureFormats renderer) h (Some a)
         (map WebGL.getExtension (firstn (S k) extension_names) ++
          (if has_compressed_extension gl
           then [WebGL.getParameter (WebGL.COMPRESSED_TEXTURE_FORMATS gl)]
           else [])) h'
    /\ (forall n, In n (firstn k extension_names) ->
        ToBoolean (WebGL.extension gl n) = false)
    /\ (has_compressed_extension gl
        = ToBoolean (WebGL.extension gl (nth k extension_names "")))
    /\ (has_compressed_extension gl = false -> k = 3%nat).
Proof.
  intros Hnone gl.
  pose proof (getCompressedTextureFormats_fresh renderer h Hnone) as Hrun.
  fold gl in Hrun. unfold performs.
  set (R := run (getCompressedTextureFormats renderer) h) in *.
  clearbody R.
  unfold driver_formats, query_calls, has_compressed_extension,
    extension_names in *.
  simpl in Hrun.
  destruct (ToBoolean (WebGL.extension gl "WEBGL_compressed_texture_pvrtc"))
    eqn:E1;
  [ exists 0%nat
  | destruct (ToBoolean (WebGL.extension gl "WEBGL_compressed_texture_s3tc"))
      eqn:E2;
    [ exists 1%nat
    | destruct (ToBoolean
                  (WebGL.extension gl "WEBGL_compressed_texture_etc1"))
        eqn:E3;
      [ exists 2%nat
      | exists 3%nat;
        destruct (ToBoolean
                    (WebGL.extension gl "WEBGL_compressed_texture_astc"))
          eqn:E4 ] ] ];
  simpl in Hrun; simpl; rewrite ?E1, ?E2, ?E3, ?E4; simpl;
  eexists; eexists;
  (split; [lia|]);
  (split; [split; [exact Hrun|reflexivity]|]);
  (split; [intros n Hin; repeat (destruct Hin as [<- | Hin]; [assumption|]);
           destruct Hin|]);
  (split; [reflexivity|]);
  intros Hf; try discriminate Hf; reflexivity.
Qed.

Lemma first_query_lookups_short_circuit_witness :
  exists k a h',
    (k < 4)%nat
    /\ performs (getCompressedTextureFormats (Renderer.mk s3tc_context)) heap0
         (Some a)
         (map WebGL.getExtension (firstn (S k) extension_names) ++
          (if has_compressed_extension s3tc_context
           then [WebGL.getParameter 34467]
           else [])) h'
    /\ (forall n, In n (firstn k extension_names) ->
        ToBoolean (WebGL.extension s3tc_context n) = false)
    /\ (has_compressed_extension s3tc_context
        = ToBoolean (WebGL.extension s3tc_context (nth k extension_names "")))
    /\ (has_compressed_extension s3tc_context = false -> k = 3%nat).
Proof.
  apply (first_query_lookups_short_circuit (Renderer.mk s3tc_context) heap0).
  reflexivity.
Defined.

(** X3: a format query never throws, answers an array, talks to the driver
    only through extension lookups and parameter queries, and changes
    nothing of the heap but the cache field: the data, the width and the
    height of the resource and the GL texture are as before. *)
Theorem query_changes_only_the_cache renderer h :
  exists a qs h',
    performs (getCompressedTextureFormats renderer) h (Some a) qs h'
    /\ forallb is_driver_query qs = true
    /\ h' = {| this := set_compressedTextureFormats (Some a) (this h);
               glTexture := glTexture h;
               gl_calls := gl_calls h ++ qs |}
    /\ data (this h') = data (this h)
    /\ BufferResource.width (this h') = BufferResource.width (this h)
    /\ BufferResource.height (this h') = BufferResource.height (this h)
    /\ glTexture h' = glTexture h.
Proof.
  set (gl := Renderer.gl renderer).
  destruct (queried_calls gl h) as (qs & Hcalls & Hall & Hpop).
  exists (cached_formats gl h), qs, (queried gl h).
  split; [split; [apply getCompressedTextureFormats_run|exact Hcalls]|].
  split; [exact Hall|].
  split.
  - unfold queried, cached_formats in *.
    destruct (compressedTextureFormats (this h)) as [a|] eqn:Hc.
    + rewrite Hpop by discriminate. rewrite app_nil_r.
      rewrite set_compressedTextureFormats_same by exact Hc.
      symmetry. apply heap_eta.
    + simpl in Hcalls. apply app_inv_head in Hcalls. subst qs. reflexivity.
  - destruct (queried_frame gl h) as (Hg & Hd & Hs).
    unfold BufferResource.width, BufferResource.height.
    rewrite Hd, Hs, Hg. repeat split.
Qed.

(** ** The dispatch of [upload] *)

Lemma same_size_false b g :
  GLTexture.width g <> BaseTexture.width b
  \/ GLTexture.height g <> BaseTexture.height b ->
  same_size b g = false.
Proof.
  intros Hdiff. unfold same_size. apply andb_false_iff.
  destruct Hdiff as [Hw | Hh]; [left | right]; apply Z.eqb_neq; assumption.
Qed.

Lemma same_size_true b g :
  GLTexture.width g = BaseTexture.width b ->
  GLTexture.height g = BaseTexture.height b ->
  same_size b g = true.
Proof.
  intros Hw Hh. unfold same_size. rewrite Hw, Hh, !Z.eqb_refl. reflexivity.
Qed.

(** The classification from what the query answers in [h]. *)
Lemma classified_from_query renderer b h a hq :
  run (getCompressedTextureFormats renderer) h = inr (Some a, hq) ->
  BaseTexture.format b <> WebGL.RGBA (Renderer.gl renderer) ->
  BaseTexture.format b <> WebGL.RGB (Renderer.gl renderer) ->
  classified_compressed (Renderer.gl renderer) b h
  = (indexOf a (BaseTexture.format b) >? -1).
Proof.
  intros Hquery Hrgba Hrgb.
  rewrite getCompressedTextureFormats_run in Hquery.
  injection Hquery as Ha _. subst a.
  unfold classified_compressed, is_standard_format.
  apply Z.eqb_neq in Hrgba, Hrgb. rewrite Hrgba, Hrgb. reflexivity.
Qed.

(** X4: every upload sets the premultiply-alpha unpack flag exactly once,
    to [baseTexture.premultiplyAlpha], after any driver query and
    immediately before its one transfer, which is its last call. *)
Theorem upload_sets_unpack_flag_before_transfer renderer b h :
  exists qs t h',
    performs (upload renderer b) h true
      (qs ++ [ WebGL.pixelStorei
                 (WebGL.UNPACK_PREMULTIPLY_ALPHA_WEBGL (Renderer.gl renderer))
                 (BaseTexture.premultiplyAlpha b); t ]) h'
    /\ forallb is_driver_query qs = true
    /\ is_transfer t = true.
Proof.
  destruct (upload_performs renderer b h) as (qs & h' & Hp & Hq & _).
  exists qs. eexists. exists h'.
  split; [exact Hp|]. split; [exact Hq|].
  apply transfer_of_is_transfer.
Qed.

(** X5: an upload on the compressed full-allocation path -- the sizes
    differ, and the format is neither RGBA nor RGB and among the formats
    the query answers -- makes the compressed full-image transfer with the
    base texture's target, level 0, the base texture's format, width and
    height, border 0 and the resource's data. *)
Theorem upload_compressed_allocation renderer b h a hq :
  GLTexture.width (glTexture h) <> BaseTexture.width b
  \/ GLTexture.height (glTexture h) <> BaseTexture.height b ->
  run (getCompressedTextureFormats renderer) h = inr (Some a, hq) ->
  BaseTexture.format b <> WebGL.RGBA (Renderer.gl renderer) ->
  BaseTexture.format b <> WebGL.RGB (Renderer.gl renderer) ->
  In (BaseTexture.format b) a ->
  exists cs h',
    performs (upload renderer b) h true cs h'
    /\ transfers cs
       = [ WebGL.compressedTexImage2D (BaseTexture.target b) 0
             (BaseTexture.format b)
             (BaseTexture.width b) (BaseTexture.height b) 0
             (data (this h)) ].
Proof.
  intros Hdiff Hquery Hrgba Hrgb Hin.
  destruct (upload_performs renderer b h) as (qs & h' & Hp & Hq & _).
  eexists. exists h'. split; [exact Hp|].
  rewrite transfers_of_upload by
    (try exact Hq; apply transfer_of_is_transfer).
  rewrite (classified_from_query renderer b h a hq Hquery Hrgba Hrgb).
  apply indexOf_found in Hin. rewrite Hin.
  unfold transfer_of. rewrite (same_size_false b _ Hdiff). reflexivity.
Qed.

Lemma upload_compressed_allocation_witness :
  exists cs h',
    performs (upload (Renderer.mk s3tc_context) dxt3_texture) heap0 true cs h'
    /\ transfers cs
       = [ WebGL.compressedTexImage2D 3553 0 33777 4 4 0 float_buffer ].
Proof.
  refine (upload_compressed_allocation (Renderer.mk s3tc_context)
            dxt3_texture heap0 [33776; 33777; 33778; 33779] _ _ _ _ _ _).
  - left. simpl. lia.
  - reflexivity.
  - simpl. lia.
  - simpl. lia.
  - simpl. right. left. reflexivity.
Defined.

(** X6: an upload on the compressed in-place path -- equal sizes, a format
    that is neither RGBA nor RGB and among the formats the query answers
    -- makes the compressed sub-image transfer with the base texture's
    target, level 0, offset (0, 0), the base texture's width, height and
    format, and the resource's data. *)
Theorem upload_compressed_in_place renderer b h a hq :
  GLTexture.width (glTexture h) = BaseTexture.width b ->
  GLTexture.height (glTexture h) = BaseTexture.height b ->
  run (getCompressedTextureFormats renderer) h = inr (Some a, hq) ->
  BaseTexture.format b <> WebGL.RGBA (Renderer.gl renderer) ->
  BaseTexture.format b <> WebGL.RGB (Renderer.gl renderer) ->
  In (BaseTexture.format b) a ->
  exists cs h',
    performs (upload renderer b) h true cs h'
    /\ transfers cs
       = [ WebGL.compressedTexSubImage2D (BaseTexture.target b) 0 0 0
             (BaseTexture.width b) (BaseTexture.height b)
             (BaseTexture.format b) (data (this h)) ].
Proof.
  intros Hw Hh Hquery Hrgba Hrgb Hin.
  destruct (upload_performs renderer b h) as (qs & h' & Hp & Hq & _).
  eexists. exists h'. split; [exact Hp|].
  rewrite transfers_of_upload by
    (try exact Hq; apply transfer_of_is_transfer).
  rewrite (classified_from_query renderer b h a hq Hquery Hrgba Hrgb).
  apply indexOf_found in Hin. rewrite Hin.
  unfold transfer_of. rewrite (same_size_true b _ Hw Hh). reflexivity.
Qed.

Lemma upload_compressed_in_place_witness :
  exists cs h',
    performs (upload (Renderer.mk s3tc_context) dxt3_texture)
      (set_glTexture (GLTexture.mk 4 4 6408 5126) heap0) true cs h'
    /\ transfers cs
       = [ WebGL.compressedTexSubImage2D 3553 0 0 0 4 4 33777 float_buffer ].
Proof.
  refine (upload_compressed_in_place (Renderer.mk s3tc_context)
            dxt3_texture (set_glTexture (GLTexture.mk 4 4 6408 5126) heap0)
            [33776; 33777; 33778; 33779] _ _ _ _ _ _ _).
  - reflexivity.
  - reflexivity.
  - reflexivity.
  - simpl. lia.
  - simpl. lia.
  - simpl. right. left. reflexivity.
Defined.

(** X7: an upload on the uncompressed in-place path -- equal sizes, and a
    format that is RGBA, RGB or not among the formats the query answers --
    makes the standard sub-image transfer with the base texture's target,
    level 0, offset (0, 0), the base texture's width, height and format,
    and as element type the base texture's [type], not the GL texture's;
    the pixels are the resource's data. *)
Theorem upload_uncompressed_in_place renderer b h a hq :
  GLTexture.width (glTexture h) = BaseTexture.width b ->
  GLTexture.height (glTexture h) = BaseTexture.height b ->
  run (getCompressedTextureFormats renderer) h = inr (Some a, hq) ->
  BaseTexture.format b = WebGL.RGBA (Renderer.gl renderer)
  \/ BaseTexture.format b = WebGL.RGB (Renderer.gl renderer)
  \/ ~ In (BaseTexture.format b) a ->
  exists cs h',
    performs (upload renderer b) h true cs h'
    /\ transfers cs
       = [ WebGL.texSubImage2D (BaseTexture.target b) 0 0 0
             (BaseTexture.width b) (BaseTexture.height b)
             (BaseTexture.format b) (BaseTexture.type b)
             (data (this h)) ].
Proof.
  intros Hw Hh Hquery Hfmt.
  destruct (upload_performs renderer b h) as (qs & h' & Hp & Hq & _).
  rewrite getCompressedTextureFormats_run in Hquery.
  injection Hquery as Ha _. subst a.
  assert (Hc : classified_compressed (Renderer.gl renderer) b h = false).
  { apply not_true_is_false. rewrite classified_compressed_iff. tauto. }
  eexists. exists h'. split; [exact Hp|].
  rewrite transfers_of_upload by
    (try exact Hq; apply transfer_of_is_transfer).
  unfold transfer_of. rewrite (same_size_true b _ Hw Hh), Hc. reflexivity.
Qed.

Lemma upload_uncompressed_in_place_witness :
  exists cs h',
    performs
      (upload (Renderer.mk s3tc_context)
         (BaseTexture.mk 6408 5121 3553 4 4 false))
      (set_glTexture (GLTexture.mk 4 4 6408 5126) heap0) true cs h'
    /\ transfers cs
       = [ WebGL.texSubImage2D 3553 0 0 0 4 4 6408 5121 float_buffer ].
Proof.
  refine (upload_uncompressed_in_place (Renderer.mk s3tc_context)
            (BaseTexture.mk 6408 5121 3553 4 4 false)
            (set_glTexture (GLTexture.mk 4 4 6408 5126) heap0)
            [33776; 33777; 33778; 33779] _ _ _ _ _).
  - reflexivity.
  - reflexivity.
  - reflexivity.
  - left. reflexivity.
Defined.

(** ** What an upload leaves behind *)

Lemma queried_populated gl h a :
  compressedTextureFormats (this h) = Some a ->
  queried gl h = h /\ cached_formats gl h = a.
Proof.
  intros Hc. unfold queried, cached_formats. rewrite Hc. auto.
Qed.

Lemma same_size_resized b g : same_size b (resized b g) = true.
Proof.
  unfold resized. destruct (same_size b g) eqn:Hs; [exact Hs|].
  unfold same_size. simpl. rewrite !Z.eqb_refl. reflexivity.
Qed.

(** X8: after every upload, whichever path it took, the GL texture has the
    width and the height of the base texture, and its [internalFormat] and
    [type] are what they were: [upload] writes no other field of it. *)
Theorem upload_syncs_texture_size renderer b h :
  exists cs h',
    performs (upload renderer b) h true cs h'
    /\ GLTexture.width (glTexture h') = BaseTexture.width b
    /\ GLTexture.height (glTexture h') = BaseTexture.height b
    /\ GLTexture.internalFormat (glTexture h')
       = GLTexture.internalFormat (glTexture h)
    /\ GLTexture.type (glTexture h') = GLTexture.type (glTexture h).
Proof.
  destruct (upload_performs renderer b h) as (qs & h' & Hp & _ & _ & Hg & _).
  eexists. exists h'. split; [exact Hp|]. rewrite Hg.
  unfold resized, same_size.
  destruct (GLTexture.width (glTexture h) =? BaseTexture.width b) eqn:Hw;
    destruct (GLTexture.height (glTexture h) =? BaseTexture.height b) eqn:Hh;
    simpl; try (repeat split; reflexivity).
  apply Z.eqb_eq in Hw, Hh. repeat split; assumption.
Qed.

(** X9: an upload never changes the data reference, the width or the
    height of the resource.  It leaves a populated cache as it is -- the
    whole resource then is unchanged -- and fills an unpopulated one
    exactly when the format is neither RGBA nor RGB, with the formats of
    the context. *)
Theorem upload_writes_only_the_cache renderer b h :
  let gl := Renderer.gl renderer in
  exists cs h',
    performs (upload renderer b) h true cs h'
    /\ data (this h') = data (this h)
    /\ BufferResource.width (this h') = BufferResource.width (this h)
    /\ BufferResource.height (this h') = BufferResource.height (this h)
    /\ (compressedTextureFormats (this h) <> None -> this h' = this h)
    /\ (compressedTextureFormats (this h) = None ->
        compressedTextureFormats (this h')
        = if (BaseTexture.format b =? WebGL.RGBA gl)
             || (BaseTexture.format b =? WebGL.RGB gl)
          then None
          else Some (driver_formats gl)).
Proof.
  intros gl. pose proof (upload_run renderer b h) as Hrun.
  cbv zeta in Hrun. fold gl in Hrun.
  destruct (upload_performs renderer b h) as (qs & h' & [Hrun' Hcs] & _).
  rewrite Hrun in Hrun'. injection Hrun' as Hh'.
  exists (qs ++ [ WebGL.pixelStorei (WebGL.UNPACK_PREMULTIPLY_ALPHA_WEBGL gl)
                    (BaseTexture.premultiplyAlpha b);
                  transfer_of (classified_compressed gl b h) b (glTexture h)
                    (data (this h)) ]), h'.
  split; [split; [rewrite Hrun, Hh'; reflexivity|exact Hcs]|].
  assert (Hthis : this h'
                  = this (if is_standard_format gl b then h else queried gl h)).
  { rewrite <- Hh'. reflexivity. }
  destruct (queried_frame gl h) as (_ & Hd & Hs).
  unfold BufferResource.width, BufferResource.height. rewrite Hthis.
  unfold is_standard_format.
  destruct ((BaseTexture.format b =? WebGL.RGBA gl)
            || (BaseTexture.format b =? WebGL.RGB gl)).
  - repeat split; auto.
  - rewrite Hd, Hs. repeat (split; [reflexivity|]). split.
    + intros Hpop.
      destruct (compressedTextureFormats (this h)) as [a|] eqn:Hc;
        [|contradiction].
      destruct (queried_populated gl h a Hc) as [-> _]. reflexivity.
    + intros Hnone. unfold queried. rewrite Hnone. reflexivity.
Qed.

(** X10: uploading twice, through the same renderer, the same base texture
    with an integer width and height, as [BaseTexture.t] has them: the
    second upload asks the driver nothing, makes a sub-image transfer of
    the same kind (compressed or not) as the transfer of the first, and
    leaves the resource and the GL texture as the first upload left them.
    The integer sizes matter: the second upload finds the sizes equal
    because [===] holds between a size and itself, which it does for
    every number but NaN; at a NaN size the code allocates again. *)
Theorem second_upload_updates_in_place renderer b h :
  exists cs1 c1 h1 c2 h2,
    performs (upload renderer b) h true cs1 h1
    /\ transfers cs1 = [c1]
    /\ performs (upload renderer b) h1 true
         [ WebGL.pixelStorei
             (WebGL.UNPACK_PREMULTIPLY_ALPHA_WEBGL (Renderer.gl renderer))
             (BaseTexture.premultiplyAlpha b); c2 ] h2
    /\ is_sub_image_transfer c2 = true
    /\ is_compressed_transfer c2 = is_compressed_transfer c1
    /\ this h2 = this h1
    /\ glTexture h2 = glTexture h1.
Proof.
  set (gl := Renderer.gl renderer).
  pose proof (upload_run renderer b h) as Hrun1. cbv zeta in Hrun1.
  fold gl in Hrun1.
  destruct (upload_performs renderer b h) as (qs & h1 & [Hr1 Hcs1] & Hq & _).
  fold gl in Hr1, Hcs1.
  assert (Hh1 : this h1
                = this (if is_standard_format gl b then h else queried gl h)
                /\ glTexture h1 = resized b (glTexture h)).
  { rewrite Hrun1 in Hr1. injection Hr1 as <-. split; reflexivity. }
  destruct Hh1 as [Hthis1 Hg1].
  (* the second run starts with matching sizes and needs no query *)
  assert (Hsecond :
    (if is_standard_format gl b then h1 else queried gl h1) = h1
    /\ classified_compressed gl b h1 = classified_compressed gl b h).
  { unfold classified_compressed.
    destruct (is_standard_format gl b) eqn:Hstd; [split; reflexivity|].
    pose proof (queried_cache gl h) as Hcache. rewrite <- Hthis1 in Hcache.
    destruct (queried_populated gl h1 _ Hcache) as [-> ->].
    split; reflexivity. }
  destruct Hsecond as [Hq2 Hc2].
  pose proof (upload_run renderer b h1) as Hrun2. cbv zeta in Hrun2.
  fold gl in Hrun2. rewrite Hq2, Hc2 in Hrun2.
  pose proof (same_size_resized b (glTexture h)) as Hsame.
  rewrite <- Hg1 in Hsame.
  eexists. eexists. exists h1. eexists. eexists.
  split; [split; [exact Hr1|exact Hcs1]|].
  split; [apply transfers_of_upload;
          [exact Hq|apply transfer_of_is_transfer]|].
  split; [split; [exact Hrun2|reflexivity]|].
  rewrite !transfer_of_compressed.
  unfold transfer_of, resized. rewrite Hsame. simpl.
  destruct (classified_compressed gl b h); repeat split.
Qed.

(** ** Disposal and the cache over the life of a resource *)

Lemma pixels_of_transfer c b g p : pixels (transfer_of c b g p) = Some p.
Proof.
  unfold transfer_of. destruct (same_size b g), c; reflexivity.
Qed.

(** X11: [upload] does not guard against a disposed resource: after
    [dispose()] an upload still completes and returns [true], and its one
    transfer is handed [null] as the pixel source. *)
Theorem upload_after_dispose_transfers_null renderer b h :
  exists h1 cs c h2,
    performs dispose h tt [] h1
    /\ performs (upload renderer b) h1 true cs h2
    /\ transfers cs = [c]
    /\ pixels c = Some null.
Proof.
  set (h1 := set_this (set_data null (this h)) h).
  destruct (upload_performs renderer b h1) as (qs & h2 & Hp & Hq & _).
  exists h1. eexists. eexists. exists h2.
  split; [split; [reflexivity|simpl; rewrite app_nil_r; reflexivity]|].
  split; [exact Hp|].
  split; [apply transfers_of_upload;
          [exact Hq|apply transfer_of_is_transfer]|].
  rewrite pixels_of_transfer. reflexivity.
Qed.

Lemma performs_seq {A B} (m : M A) (k : A -> M B) h a cs h1 b cs' h2 :
  performs m h a cs h1 -> performs (k a) h1 b cs' h2 ->
  performs (bind m k) h b (cs ++ cs') h2.
Proof.
  intros [Hm Hc] [Hk Hc']. split.
  - rewrite run_bind, Hm. exact Hk.
  - rewrite Hc', Hc, app_assoc. reflexivity.
Qed.

(** With a populated cache, one operation keeps the cache and asks the
    driver nothing. *)
Lemma perform_with_populated_cache o h a :
  compressedTextureFormats (this h) = Some a ->
  exists cs h',
    performs (perform o) h tt cs h'
    /\ compressedTextureFormats (this h') = Some a
    /\ forallb (fun c => negb (is_driver_query c)) cs = true.
Proof.
  intros Hc. destruct o as [renderer b g | renderer |]; unfold perform.
  - set (hg := set_glTexture g h).
    assert (Hcg : compressedTextureFormats (this hg) = Some a) by exact Hc.
    pose proof (upload_run renderer b hg) as Hrun. cbv zeta in Hrun.
    destruct (queried_populated (Renderer.gl renderer) hg a Hcg) as [Hq _].
    rewrite Hq in Hrun.
    replace (if is_standard_format (Renderer.gl renderer) b then hg else hg)
      with hg in Hrun by (destruct (is_standard_format _ b); reflexivity).
    eexists. eexists. split; [split|].
    + rewrite run_bind, run_modify, run_bind. fold hg. rewrite Hrun.
      reflexivity.
    + simpl. reflexivity.
    + split; [exact Hc|]. simpl. unfold transfer_of.
      destruct (same_size b g),
        (classified_compressed (Renderer.gl renderer) b hg); reflexivity.
  - exists [], h. split; [split|].
    + rewrite run_bind, (getCompressedTextureFormats_cached renderer h a Hc).
      reflexivity.
    + rewrite app_nil_r. reflexivity.
    + split; [exact Hc|reflexivity].
  - exists []. eexists. split; [split; [reflexivity|]|].
    + simpl. rewrite app_nil_r. reflexivity.
    + split; [exact Hc|reflexivity].
Qed.

(** X12: once the cache of a resource is populated, no sequence of
    uploads, format queries and disposals -- through whatever renderers --
    ever replaces or clears it, and none of them makes an extension lookup
    or a parameter query again. *)
Theorem populated_cache_is_final ops : forall h a,
  compressedTextureFormats (this h) = Some a ->
  exists cs h',
    performs (for_each ops perform) h tt cs h'
    /\ compressedTextureFormats (this h') = Some a
    /\ forallb (fun c => negb (is_driver_query c)) cs = true.
Proof.
  induction ops as [|o ops IH]; intros h a Hc.
  - exists [], h. split; [split; [reflexivity|]|].
    + rewrite app_nil_r. reflexivity.
    + split; [exact Hc|reflexivity].
  - destruct (perform_with_populated_cache o h a Hc)
      as (cs1 & h1 & Hp1 & Hc1 & Hq1).
    destruct (IH h1 a Hc1) as (cs2 & h2 & Hp2 & Hc2 & Hq2).
    exists (cs1 ++ cs2), h2. split; [|split].
    + change (for_each (o :: ops) perform)
        with (perform o ;; for_each ops perform).
      exact (performs_seq (perform o) (fun _ => for_each ops perform)
               h tt cs1 h1 tt cs2 h2 Hp1 Hp2).
    + exact Hc2.
    + rewrite forallb_app, Hq1, Hq2. reflexivity.
Qed.

Lemma populated_cache_is_final_witness :
  exists cs h',
    performs
      (for_each
         [ Upload (Renderer.mk plain_context) dxt3_texture
             (GLTexture.mk 0 0 6408 5126);
           Dispose;
           GetCompressedTextureFormats (Renderer.mk s3tc_context);
           Upload (Renderer.mk s3tc_context) dxt3_texture
             (GLTexture.mk 4 4 6408 5126) ] perform)
      (set_this (set_compressedTextureFormats (Some [33777]) resource4x4)
         heap0) tt cs h'
    /\ compressedTextureFormats (this h') = Some [33777]
    /\ forallb (fun c => negb (is_driver_query c)) cs = true.
Proof.
  apply (populated_cache_is_final _
           (set_this (set_compressedTextureFormats (Some [33777]) resource4x4)
              heap0) [33777]).
  reflexivity.
Defined.

(** ** More on construction *)

(** X13: the constructor never inspects [source].  Whether it throws
    depends on [options] alone, and when it succeeds the resource holds
    the very [source] it was given -- also one [test] rejects, such as a
    [Uint8ClampedArray] or [null]. *)
Theorem constructor_ignores_source source source' options :
  (forall e, constructor source options = inl e ->
             constructor source' options = inl e)
  /\ (forall r, constructor source options = inr r ->
                data r = source
                /\ constructor source' options = inr (set_data source' r)).
Proof.
  unfold constructor.
  destruct (negb (ToBoolean (Get (JS.or_else options empty_object) "width"))
            || negb (ToBoolean
                       (Get (JS.or_else options empty_object) "height"))).
  - split; [intros e He; exact He|intros r Hr; discriminate Hr].
  - split; [intros e He; discriminate He|].
    intros r Hr. injection Hr as <-. split; reflexivity.
Qed.

(** X14: when [options] is left out, or is [null] or any other value that
    is not an object, the constructor throws its own
    [Error('BufferResource width or height invalid')] -- the default
    [options || {}] keeps the destructuring from failing first. *)
Theorem constructor_without_options_throws source options :
  (forall c ps, options <> object c ps) ->
  constructor source options
  = inl (Error "BufferResource width or height invalid").
Proof.
  intros Hprim. unfold constructor.
  rewrite !destructured_option.
  assert (Hnone : forall k, provided options k = None).
  { intros k. destruct options as [| | | | |c ps]; try reflexivity.
    exfalso. apply (Hprim c ps). reflexivity. }
  rewrite !Hnone. reflexivity.
Qed.

Lemma constructor_without_options_throws_witness :
  constructor float_buffer undefined
  = inl (Error "BufferResource width or height invalid").
Proof.
  apply (constructor_without_options_throws float_buffer undefined).
  intros c ps H. discriminate H.
Defined.
